(** * Recent-tab tracker of the tab-switch Chrome extension

    A shallow embedding of [src/background.ts].  The file under [src/]
    holds two revisions of the service worker, one after the other: the
    first (lines 1-132) tries a single previous tab on the keyboard
    command, the second (lines 133-299) scans the whole history and cleans
    up stale entries, and replaces a closed active tab by position.

    The Chrome API is an external collaborator of the code.  It is modelled
    by a record of oracles ([Chrome]) that answer the calls the handlers
    make; the session storage, the module-level variable [activeTabIndex]
    and the sequence of API calls with an effect are explicit state
    ([State]), threaded through a small state monad.  A handler run is
    modelled on its own: the events that Chrome fires in response to a call
    (an activation event after a successful [chrome.tabs.update]) start
    other runs. *)

From Stdlib Require Import ZArith.
From stdpp Require Import gmap list strings.

Local Open Scope Z_scope.

(** ** Data model *)

(** [type TabsByWindow = Record<number, number[]>]: window id -> tab ids,
    most recently activated first.  Window and tab identifiers are
    integers. *)
Abbreviation TabsByWindow := (gmap Z (list Z)).

(** The fields of [chrome.tabs.Tab] that the handlers read.  [id] is
    optional in the Chrome typings. *)
Record Tab := mkTab {
  tab_id : option Z;
  tab_index : Z
}.

(** What the browser answers to the calls made during one run of a handler.
    A rejected promise (the code's [catch] branch) is [None] or [false]. *)
Record Chrome := mkChrome {
  (* chrome.tabs.get(tabId) *)
  tabs_get : Z → option Tab;
  (* chrome.tabs.update(tabId, { active: true }) resolves *)
  tabs_update : Z → bool;
  (* chrome.tabs.query({ windowId }) *)
  tabs_query : Z → option (list Tab);
  (* (await chrome.windows.getCurrent()).id *)
  windows_getCurrent : option Z
}.

(** A tab as [chrome.windows.getAll({ populate: true })] lists it: the
    fields above and [active]. *)
Record WindowTab := mkWindowTab {
  wtab : Tab;
  wtab_active : bool
}.

(** The fields of [chrome.windows.Window] that the start-up listener reads;
    both are optional in the Chrome typings. *)
Record Window := mkWindow {
  window_id : option Z;
  window_tabs : option (list WindowTab)
}.

(** Calls that reach outside the handler, in the order they are made. *)
Inductive Effect :=
  | StorageSet (tabsByWindow : TabsByWindow)
  | TabsGet (tabId : Z)
  | TabsUpdate (tabId : Z) (resolved : bool)
  | TabsQuery (windowId : Z)
  | WindowsGetCurrent
  | ConsoleLog (msg : string)
  | ConsoleError (msg : string).

Record State := mkState {
  (* the value stored under STORAGE_KEY in chrome.storage.session, if any *)
  session : option TabsByWindow;
  (* let activeTabIndex: number | null (second revision only) *)
  activeTabIndex : option Z;
  (* effects so far, oldest first *)
  trace : list Effect
}.

(** The exits of [switchToPreviousTab].  The function returns
    [Promise<void>]; the constructors name the [return] that was taken. *)
Inductive Outcome :=
  | NoCurrentWindow            (* return after 'No current window' *)
  | NotEnoughHistory           (* return after 'Not enough tabs in history ...' *)
  | Switched (tabId : Z)       (* chrome.tabs.update resolved *)
  | StaleRemoved (tabId : Z)   (* first revision: the catch branch ran *)
  | AllStale.                  (* second revision: the loop ran to its end *)

(** ** The state monad of a handler run *)

Definition M (A : Type) : Type := State → A * State.

Definition ret {A} (a : A) : M A := λ st, (a, st).
Definition bind {A B} (m : M A) (f : A → M B) : M B := λ st,
  let '(a, st') := m st in f a st'.

Notation "'let*' x ':=' m 'in' k" := (bind m (λ x, k))
  (at level 10, x name, m at level 100, k at level 200, only parsing).
Notation "m '>>' k" := (bind m (λ _, k))
  (at level 100, k at level 200, right associativity, only parsing).

Definition exec {A} (m : M A) (st : State) : State := (m st).2.
Definition result {A} (m : M A) (st : State) : A := (m st).1.

Definition emit (e : Effect) : M () := λ st,
  ((), mkState (session st) (activeTabIndex st) (trace st ++ [e])).

Definition storage_session_get : M (option TabsByWindow) := λ st,
  (session st, st).

Definition storage_session_set (tabsByWindow : TabsByWindow) : M () := λ st,
  ((), mkState (Some tabsByWindow) (activeTabIndex st)
               (trace st ++ [StorageSet tabsByWindow])).

Definition set_activeTabIndex (v : option Z) : M () := λ st,
  ((), mkState (session st) v (trace st)).

Definition get_activeTabIndex : M (option Z) := λ st, (activeTabIndex st, st).

Definition chrome_tabs_get (c : Chrome) (tabId : Z) : M (option Tab) :=
  emit (TabsGet tabId) >> ret (tabs_get c tabId).

Definition chrome_tabs_update (c : Chrome) (tabId : Z) : M bool :=
  emit (TabsUpdate tabId (tabs_update c tabId)) >> ret (tabs_update c tabId).

Definition chrome_tabs_query (c : Chrome) (windowId : Z) : M (option (list Tab)) :=
  emit (TabsQuery windowId) >> ret (tabs_query c windowId).

Definition chrome_windows_getCurrent (c : Chrome) : M (option Z) :=
  emit WindowsGetCurrent >> ret (windows_getCurrent c).

(** A branch with nothing to do. *)
Definition skip : M () := ret ().

Definition console_log (msg : string) : M () := emit (ConsoleLog msg).
Definition console_error (msg : string) : M () := emit (ConsoleError msg).

(** JavaScript truthiness of an optional number: [undefined] and [0] are
    falsy. *)
Definition truthy (n : option Z) : option Z :=
  match n with
  | Some v => if decide (v = 0) then None else Some v
  | None => None
  end.

(** ** Storage helpers (identical in both revisions) *)

(** [result[STORAGE_KEY] || {}] *)
Definition getTabsByWindow : M TabsByWindow :=
  let* stored := storage_session_get in ret (default ∅ stored).

Definition setTabsByWindow (tabsByWindow : TabsByWindow) : M () :=
  storage_session_set tabsByWindow.

(** [tabsByWindow[windowId] || []] *)
Definition getRecentTabsForWindow (windowId : Z) : M (list Z) :=
  let* tabsByWindow := getTabsByWindow in ret (default [] (tabsByWindow !! windowId)).

Definition setRecentTabsForWindow (windowId : Z) (tabs : list Z) : M () :=
  let* tabsByWindow := getTabsByWindow in
  setTabsByWindow (<[windowId := tabs]> tabsByWindow).

(** [chrome.runtime.onInstalled] listener (lines 29-43 and 161-175).
    [windows] is what [chrome.windows.getAll({ populate: true })] answers.
    The table is built from the empty object, one assignment per window
    that passes the two tests, and then stored whole. *)
Definition onInstalled_step (tabsByWindow : TabsByWindow) (window : Window)
  : TabsByWindow :=
  match truthy (window_id window), window_tabs window with
  | Some windowId, Some tabs =>
      let activeTab := List.find wtab_active tabs in
      match truthy (activeTab ≫= λ t, tab_id (wtab t)) with
      | Some activeTabId => <[windowId := [activeTabId]]> tabsByWindow
      | None => tabsByWindow
      end
  | _, _ => tabsByWindow
  end.

Definition onInstalled (windows : list Window) : M () :=
  let tabsByWindow := foldl onInstalled_step ∅ windows in
  setTabsByWindow tabsByWindow.

(** What a read of the table and of one window's history returns in a
    state. *)
Definition table (st : State) : TabsByWindow := result getTabsByWindow st.
Definition history (st : State) (windowId : Z) : list Z :=
  result (getRecentTabsForWindow windowId) st.

(** ** Second revision (lines 133-299) *)

Module Rev2.

(** [chrome.tabs.onActivated] listener. *)
Definition onActivated (c : Chrome) (tabId windowId : Z) : M () :=
  let* tab := chrome_tabs_get c tabId in
  set_activeTabIndex (tab_index <$> tab) >>
  let* recentTabs := getRecentTabsForWindow windowId in
  let recentTabs := filter (λ id, id ≠ tabId) recentTabs in
  let recentTabs := tabId :: recentTabs in
  let recentTabs :=
    if (4 <? length recentTabs)%nat then take 4 recentTabs else recentTabs in
  setRecentTabsForWindow windowId recentTabs.

(** [chrome.tabs.onRemoved] listener. *)
Definition onRemoved (c : Chrome) (tabId windowId : Z) (isWindowClosing : bool)
  : M () :=
  if isWindowClosing then skip
  else
    let* recentTabs := getRecentTabsForWindow windowId in
    let wasActiveTab := bool_decide (recentTabs !! 0%nat = Some tabId) in
    let recentTabs := filter (λ id, id ≠ tabId) recentTabs in
    setRecentTabsForWindow windowId recentTabs >>
    let* hint := get_activeTabIndex in
    match wasActiveTab, hint with
    | true, Some activeTabIndex =>
        let* allTabs := chrome_tabs_query c windowId in
        match allTabs with
        | Some allTabs =>
            if (0 <? length allTabs)%nat then
              let targetIndex :=
                Z.min activeTabIndex (Z.of_nat (length allTabs) - 1) in
              let targetTab :=
                List.find (λ t, tab_index t =? targetIndex) allTabs in
              match truthy (targetTab ≫= tab_id) with
              | Some target =>
                  let* resolved := chrome_tabs_update c target in
                  if resolved then skip
                  else console_error "Error switching to next tab by position:"
              | None => skip
              end
            else skip
        | None => console_error "Error switching to next tab by position:"
        end
    | _, _ => skip
    end.

(** [chrome.windows.onRemoved] listener. *)
Definition onWindowRemoved (windowId : Z) : M () :=
  let* tabsByWindow := getTabsByWindow in
  setTabsByWindow (delete windowId tabsByWindow).

(** The [for] loop of [switchToPreviousTab] and what follows it.
    [candidates] is what is left of [recentTabs[i]], [i = 1 ..]; the loop
    never reassigns [recentTabs] before it returns. *)
Fixpoint scan (c : Chrome) (windowId : Z) (recentTabs candidates
  invalidTabIds : list Z) : M Outcome :=
  match candidates with
  | tabId :: rest =>
      let* resolved := chrome_tabs_update c tabId in
      if resolved then
        (if (0 <? length invalidTabIds)%nat then
           let recentTabs := filter (λ id, id ∉ invalidTabIds) recentTabs in
           setRecentTabsForWindow windowId recentTabs
         else skip) >>
        ret (Switched tabId)
      else scan c windowId recentTabs rest (invalidTabIds ++ [tabId])
  | [] =>
      (if (0 <? length invalidTabIds)%nat then
         let recentTabs := filter (λ id, id ∉ invalidTabIds) recentTabs in
         setRecentTabsForWindow windowId recentTabs >>
         console_log "Cleaned up stale tab IDs:"
       else skip) >>
      ret AllStale
  end.

(** Lines 265-298: [switchToPreviousTab] once the focused window is known.
    The specification calls this part [resolveSwitchTarget(windowId)]. *)
Definition resolveSwitchTarget (c : Chrome) (windowId : Z) : M Outcome :=
  let* recentTabs := getRecentTabsForWindow windowId in
  if (length recentTabs <? 2)%nat then
    console_log "Not enough tabs in history for this window to switch" >>
    ret NotEnoughHistory
  else scan c windowId recentTabs (drop 1 recentTabs) [].

Definition switchToPreviousTab (c : Chrome) : M Outcome :=
  let* currentWindow := chrome_windows_getCurrent c in
  match truthy currentWindow with
  | None => console_log "No current window" >> ret NoCurrentWindow
  | Some windowId => resolveSwitchTarget c windowId
  end.

(** [chrome.commands.onCommand] listener.  The listener does not wait for
    [switchToPreviousTab]; [None] stands for a command it ignores. *)
Definition onCommand (c : Chrome) (command : string) : M (option Outcome) :=
  if decide (command = "switch-tabs") then
    let* outcome := switchToPreviousTab c in ret (Some outcome)
  else ret None.

End Rev2.

(** ** First revision (lines 1-132) *)

Module Rev1.

(** [chrome.tabs.onActivated] listener (lines 46-62). *)
Definition onActivated (tabId windowId : Z) : M () :=
  let* recentTabs := getRecentTabsForWindow windowId in
  let recentTabs := filter (λ id, id ≠ tabId) recentTabs in
  let recentTabs := tabId :: recentTabs in
  let recentTabs :=
    if (4 <? length recentTabs)%nat then take 4 recentTabs else recentTabs in
  setRecentTabsForWindow windowId recentTabs.

(** [chrome.tabs.onRemoved] listener (lines 65-88). *)
Definition onRemoved (c : Chrome) (tabId windowId : Z) (isWindowClosing : bool)
  : M () :=
  if isWindowClosing then skip
  else
    let* recentTabs := getRecentTabsForWindow windowId in
    let wasActiveTab := bool_decide (recentTabs !! 0%nat = Some tabId) in
    let recentTabs := filter (λ id, id ≠ tabId) recentTabs in
    setRecentTabsForWindow windowId recentTabs >>
    if wasActiveTab && (0 <? length recentTabs)%nat then
      match recentTabs !! 0%nat with
      | Some nextTabId =>
          let* resolved := chrome_tabs_update c nextTabId in
          if resolved then skip
          else console_error "Error switching to next tab in history:"
      | None => skip (* not reached: length > 0 *)
      end
    else skip.

(** Lines 112-131: [switchToPreviousTab] once the focused window is
    known. *)
Definition resolveSwitchTarget (c : Chrome) (windowId : Z) : M Outcome :=
  let* recentTabs := getRecentTabsForWindow windowId in
  if (length recentTabs <? 2)%nat then
    console_log "Not enough tabs in history for this window to switch" >>
    ret NotEnoughHistory
  else
    match recentTabs !! 1%nat with
    | Some previousTabId =>
        let* resolved := chrome_tabs_update c previousTabId in
        if resolved then ret (Switched previousTabId)
        else
          console_error "Error switching to previous tab:" >>
          let* updatedTabs := getRecentTabsForWindow windowId in
          let updatedTabs := filter (λ id, id ≠ previousTabId) updatedTabs in
          setRecentTabsForWindow windowId updatedTabs >>
          ret (StaleRemoved previousTabId)
    | None => ret NotEnoughHistory (* not reached: length >= 2 *)
    end.

Definition switchToPreviousTab (c : Chrome) : M Outcome :=
  let* currentWindow := chrome_windows_getCurrent c in
  match truthy currentWindow with
  | None => console_log "No current window" >> ret NoCurrentWindow
  | Some windowId => resolveSwitchTarget c windowId
  end.

End Rev1.

(** Sequences of activation events, each with the browser as it is when
    the event is handled. *)
Record Activation := mkActivation {
  act_chrome : Chrome;
  act_tabId : Z;
  act_windowId : Z
}.

Definition handleActivation (st : State) (a : Activation) : State :=
  exec (Rev2.onActivated (act_chrome a) (act_tabId a) (act_windowId a)) st.

Definition handleActivations (evs : list Activation) (st : State) : State :=
  foldl handleActivation st evs.

(** The events of the second revision, each with what the browser answers
    while it is handled. *)
Inductive Event :=
  | Installed (windows : list Window)
  | Activated (c : Chrome) (tabId windowId : Z)
  | Removed (c : Chrome) (tabId windowId : Z) (isWindowClosing : bool)
  | WindowRemoved (windowId : Z)
  | Command (c : Chrome) (command : string).

Definition handle (st : State) (ev : Event) : State :=
  match ev with
  | Installed windows => exec (onInstalled windows) st
  | Activated c tabId windowId => exec (Rev2.onActivated c tabId windowId) st
  | Removed c tabId windowId isWindowClosing =>
      exec (Rev2.onRemoved c tabId windowId isWindowClosing) st
  | WindowRemoved windowId => exec (Rev2.onWindowRemoved windowId) st
  | Command c command => exec (Rev2.onCommand c command) st
  end.

Definition run (evs : list Event) (st : State) : State := foldl handle st evs.

(** The invariant of one window's history (specification, section 3). *)
Definition HistoryInv (recentTabs : list Z) : Prop :=
  (length recentTabs ≤ 4)%nat ∧ NoDup recentTabs.

(** ** Auxiliary definitions for the statements *)

(** The list that lines 196-204 compute from the stored history. *)
Definition activated (tabId : Z) (recentTabs : list Z) : list Z :=
  let l := tabId :: filter (λ id, id ≠ tabId) recentTabs in
  if (4 <? length l)%nat then take 4 l else l.

(** The state with further effects recorded. *)
Definition logged (es : list Effect) (st : State) : State :=
  mkState (session st) (activeTabIndex st) (trace st ++ es).

(** The state after the history of [w] was persisted as [tabs]. *)
Definition persisted (w : Z) (tabs : list Z) (st : State) : State :=
  exec (setRecentTabsForWindow w tabs) st.

(** The state after the stale entries, if any, were dropped from the
    persisted history (lines 282-285). *)
Definition cleaned (w : Z) (recentTabs invalidTabIds : list Z) (st : State)
  : State :=
  match invalidTabIds with
  | [] => st
  | _ => persisted w (filter (λ id, id ∉ invalidTabIds) recentTabs) st
  end.

(** ** Concrete scenarios *)

(** A fresh session: nothing stored, no index known, nothing done yet. *)
Definition fresh : State := mkState None None [].

(** A session in which window [w] has the history [tabs]. *)
Definition stored (w : Z) (tabs : list Z) (hint : option Z) : State :=
  mkState (Some {[ w := tabs ]}) hint [].

Definition st_5 : State := stored 1 [5] None.
Definition st_5_3 : State := stored 1 [5; 3] None.
Definition st_5_3_9 (hint : option Z) : State := stored 1 [5; 3; 9] hint.

(** A browser with window 1 focused, holding [tabs]; a tab can be activated
    when one of [tabs] has its id. *)
Definition browser (tabs : list Tab) : Chrome :=
  mkChrome
    (λ tabId, List.find (λ x, bool_decide (tab_id x = Some tabId)) tabs)
    (λ tabId, bool_decide (Some tabId ∈ map tab_id tabs))
    (λ _, Some tabs)
    (Some 1).

(** Tabs 9, 3 and 7 at positions 0, 1 and 2. *)
Definition tabs_9_3_7 : list Tab :=
  [mkTab (Some 9) 0; mkTab (Some 3) 1; mkTab (Some 7) 2].

(** Tab 9 alone. *)
Definition tabs_9 : list Tab := [mkTab (Some 9) 0].

(** Tabs 1 to 5 activated in turn in window 1, then tab 2 again. *)
Definition six_activations : list Activation :=
  map (λ t, mkActivation (browser []) t 1) [1; 2; 3; 4; 5; 2].

(** ** Further definitions for the statements *)

(** Every window's history satisfies the invariant. *)
Definition AllInv (st : State) : Prop := ∀ w, HistoryInv (history st w).

(** The tabs of a window as Chrome lists them: the tab at position [i] of
    the list has index [i]. *)
Definition well_indexed (allTabs : list Tab) : Prop :=
  ∀ (i : nat) tab, allTabs !! i = Some tab → tab_index tab = Z.of_nat i.

(** What holds of every entry of the table the start-up loop builds. *)
Definition installed_entry (windows : list Window) (w : Z) (l : list Z)
  : Prop :=
  ∃ t window tabs wt,
    l = [t] ∧ w ≠ 0 ∧ t ≠ 0 ∧
    window ∈ windows ∧ window_id window = Some w ∧
    window_tabs window = Some tabs ∧
    List.find wtab_active tabs = Some wt ∧
    wtab_active wt = true ∧ tab_id (wtab wt) = Some t.

(** Windows at start-up: window 1 with tab 3 active, then window 2 with no
    tab active and a window without an id. *)
Definition window_1 : Window :=
  mkWindow (Some 1)
    (Some [mkWindowTab (mkTab (Some 9) 0) false;
           mkWindowTab (mkTab (Some 3) 1) true]).

Definition windows_after_1 : list Window :=
  [mkWindow (Some 2) (Some [mkWindowTab (mkTab (Some 4) 0) false]);
   mkWindow None (Some [mkWindowTab (mkTab (Some 6) 0) true])].

Definition windows_at_startup : list Window := window_1 :: windows_after_1.

(** A browser that reports the id 0 for the focused window. *)
Definition browser_window_0 : Chrome :=
  mkChrome (λ _, None) (λ _, true) (λ _, Some []) (Some 0).


(** A start-up, four activations in window 1, a command, the removal of
    tab 4, a command that is not ours, and the removal of window 1. *)
Definition mixed_events : list Event :=
  [Installed windows_at_startup;
   Activated (browser tabs_9_3_7) 9 1;
   Activated (browser tabs_9_3_7) 7 1;
   Activated (browser tabs_9_3_7) 4 1;
   Activated (browser tabs_9_3_7) 8 1;
   Command (browser tabs_9_3_7) "switch-tabs";
   Removed (browser tabs_9_3_7) 4 1 false;
   Command (browser tabs_9_3_7) "other";
   WindowRemoved 2].

(** * Properties *)

(** ** Reading and writing the table *)

Lemma table_session st : table st = default ∅ (session st).
Proof. reflexivity. Qed.

Lemma history_table st w : history st w = default [] (table st !! w).
Proof. reflexivity. Qed.

Lemma getRecentTabsForWindow_run w st :
  getRecentTabsForWindow w st = (history st w, st).
Proof. reflexivity. Qed.

Lemma setRecentTabsForWindow_run w tabs st :
  setRecentTabsForWindow w tabs st =
    ((), mkState (Some (<[w := tabs]> (table st))) (activeTabIndex st)
                 (trace st ++ [StorageSet (<[w := tabs]> (table st))])).
Proof. reflexivity. Qed.

Lemma history_insert_eq st st' w tabs :
  session st' = Some (<[w := tabs]> (table st)) → history st' w = tabs.
Proof.
  intros Hs. rewrite history_table, table_session, Hs. simpl.
  by rewrite lookup_insert_eq.
Qed.

Lemma history_insert_ne st st' w w' tabs :
  w ≠ w' → session st' = Some (<[w := tabs]> (table st)) →
  history st' w' = history st w'.
Proof.
  intros Hne Hs. rewrite !history_table, (table_session st'), Hs. simpl.
  by rewrite lookup_insert_ne.
Qed.

(** ** Activation *)

Lemma onActivated_run c tabId w st :
  Rev2.onActivated c tabId w st =
    let tbl := <[w := activated tabId (history st w)]> (table st) in
    ((), mkState (Some tbl) (tab_index <$> tabs_get c tabId)
                 (trace st ++ [TabsGet tabId; StorageSet tbl])).
Proof.
  unfold Rev2.onActivated, bind, chrome_tabs_get, bind, emit, ret,
    set_activeTabIndex. simpl.
  rewrite setRecentTabsForWindow_run. simpl.
  by rewrite <- app_assoc.
Qed.

Lemma activated_take tabId recentTabs :
  activated tabId recentTabs =
    tabId :: take 3 (filter (λ id, id ≠ tabId) recentTabs).
Proof.
  unfold activated. cbv zeta.
  destruct (4 <? _)%nat eqn:Hlen; [done |].
  apply Nat.ltb_ge in Hlen. simpl in Hlen.
  rewrite take_ge; [done | lia].
Qed.

Lemma NoDup_take {A} (n : nat) (l : list A) : NoDup l → NoDup (take n l).
Proof.
  intros Hnd. rewrite <- (take_drop n l) in Hnd.
  by apply NoDup_app in Hnd as [? _].
Qed.

Lemma activated_length tabId recentTabs :
  (length (activated tabId recentTabs) ≤ 4)%nat.
Proof. rewrite activated_take. simpl. rewrite length_take. lia. Qed.

Lemma activated_NoDup tabId recentTabs :
  NoDup recentTabs → NoDup (activated tabId recentTabs).
Proof.
  intros Hnd. rewrite activated_take. apply NoDup_cons. split.
  - intros Hin. apply elem_of_take in Hin as (i & Hi & _).
    apply list_elem_of_lookup_2, list_elem_of_filter in Hi as [Hne _]. done.
  - by apply NoDup_take, NoDup_filter.
Qed.

Lemma activated_inv tabId recentTabs :
  HistoryInv recentTabs → HistoryInv (activated tabId recentTabs).
Proof.
  intros [_ Hnd]. split; [apply activated_length | by apply activated_NoDup].
Qed.

Lemma filter_Forall_id {A} (P : A → Prop) `{!∀ x, Decision (P x)} (l : list A) :
  Forall P l → filter P l = l.
Proof.
  induction 1 as [| x l Hx _ IH]; [done |].
  rewrite filter_cons_True by done. by rewrite IH.
Qed.

Lemma filter_ne_take (tabId : Z) (n : nat) (l : list Z) :
  tabId ∉ l → filter (λ id, id ≠ tabId) (take n l) = take n l.
Proof.
  intros Hnin. apply filter_Forall_id. apply Forall_forall.
  intros x Hx ->. apply Hnin. apply elem_of_take in Hx as (i & Hi & _).
  by eapply list_elem_of_lookup_2.
Qed.

Lemma activated_idemp tabId recentTabs :
  activated tabId (activated tabId recentTabs) = activated tabId recentTabs.
Proof.
  rewrite !activated_take. f_equal.
  rewrite filter_cons_False by (intros H; by apply H).
  rewrite filter_ne_take.
  - by rewrite take_take, Nat.min_id.
  - intros Hin. by apply list_elem_of_filter in Hin as [Hne _].
Qed.

Lemma onActivated_session c tabId w st :
  session (exec (Rev2.onActivated c tabId w) st) =
    Some (<[w := activated tabId (history st w)]> (table st)).
Proof. unfold exec. by rewrite onActivated_run. Qed.

Lemma onActivated_table c tabId w st :
  table (exec (Rev2.onActivated c tabId w) st) =
    <[w := activated tabId (history st w)]> (table st).
Proof. by rewrite table_session, onActivated_session. Qed.

Lemma onActivated_history c tabId w st :
  history (exec (Rev2.onActivated c tabId w) st) w =
    activated tabId (history st w).
Proof. eapply history_insert_eq, onActivated_session. Qed.

Lemma handleActivation_history st a w :
  history (handleActivation st a) w =
    if decide (act_windowId a = w)
    then activated (act_tabId a) (history st w)
    else history st w.
Proof.
  unfold handleActivation. case_decide as Hw.
  - subst w. apply onActivated_history.
  - eapply history_insert_ne; [done | apply onActivated_session].
Qed.

(** C1.  Whatever activations are handled, in this window or in others,
    and in whatever state the browser is at each of them, a window whose
    history has at most 4 entries and no duplicate (the empty history in
    particular) still has such a history afterwards. *)
Theorem activations_preserve_invariant (evs : list Activation) (st : State)
  (w : Z) :
  HistoryInv (history st w) →
  HistoryInv (history (handleActivations evs st) w).
Proof.
  unfold handleActivations. revert st.
  induction evs as [| a evs IH]; intros st Hinv; simpl; [done |].
  apply IH. rewrite handleActivation_history.
  case_decide; [by apply activated_inv | done].
Qed.

(** C7.  Right after an activation of tab [t] in window [w] is handled,
    [t] is the first entry of the history of [w].  No assumption on the
    earlier history is needed. *)
Theorem onActivated_front (c : Chrome) (t w : Z) (st : State) :
  history (exec (Rev2.onActivated c t w) st) w !! 0%nat = Some t.
Proof.
  by rewrite onActivated_history, activated_take.
Qed.

(** C8.  Handling the same activation twice in a row leaves the stored
    table as it is after the first time, whatever the browser answers at
    either time. *)
Theorem onActivated_idempotent (c1 c2 : Chrome) (t w : Z) (st : State) :
  session (exec (Rev2.onActivated c2 t w) (exec (Rev2.onActivated c1 t w) st))
  = session (exec (Rev2.onActivated c1 t w) st).
Proof.
  rewrite !onActivated_session, onActivated_table, onActivated_history.
  by rewrite insert_insert_eq, activated_idemp.
Qed.

(** ** Removal *)

Lemma logged_logged es1 es2 st :
  logged es2 (logged es1 st) = logged (es1 ++ es2) st.
Proof. unfold logged. simpl. by rewrite app_assoc. Qed.

Lemma logged_nil st : logged [] st = st.
Proof. destruct st. unfold logged. simpl. by rewrite app_nil_r. Qed.

Lemma persisted_session w tabs st :
  session (persisted w tabs st) = Some (<[w := tabs]> (table st)).
Proof. reflexivity. Qed.

Lemma persisted_trace w tabs st :
  trace (persisted w tabs st) =
    trace st ++ [StorageSet (<[w := tabs]> (table st))].
Proof. reflexivity. Qed.

Lemma persisted_history w tabs st : history (persisted w tabs st) w = tabs.
Proof. eapply history_insert_eq, persisted_session. Qed.

Lemma table_logged es st : table (logged es st) = table st.
Proof. reflexivity. Qed.

Lemma history_logged es st w : history (logged es st) w = history st w.
Proof. reflexivity. Qed.

(** C6.  When the window is closing, the removal handler returns at once:
    the state after it is the state before it, so the stored table is the
    same, nothing was written and no tab was activated. *)
Theorem onRemoved_window_closing (c : Chrome) (t w : Z) (st : State) :
  exec (Rev2.onRemoved c t w true) st = st.
Proof. unfold exec, Rev2.onRemoved, skip, ret. reflexivity. Qed.

(** What the handler does after the history was persisted, when the closed
    tab was not the first entry of the history or no index is known. *)
Lemma onRemoved_no_replacement c t w st :
  history st w !! 0%nat ≠ Some t ∨ activeTabIndex st = None →
  exec (Rev2.onRemoved c t w false) st =
    persisted w (filter (λ id, id ≠ t) (history st w)) st.
Proof.
  intros Hno. unfold exec, Rev2.onRemoved, bind.
  rewrite getRecentTabsForWindow_run, setRecentTabsForWindow_run.
  unfold get_activeTabIndex. cbn [activeTabIndex].
  destruct Hno as [Hne | Hnone].
  - rewrite bool_decide_eq_false_2 by done. reflexivity.
  - unfold persisted, exec. rewrite setRecentTabsForWindow_run.
    rewrite Hnone. destruct (bool_decide _); reflexivity.
Qed.

(** What the handler does when the closed tab was the first entry of the
    history, an index is known, and the tab found at the target position
    has a usable id. *)
Lemma onRemoved_replacement c t w st h allTabs tab target :
  history st w !! 0%nat = Some t →
  activeTabIndex st = Some h →
  tabs_query c w = Some allTabs →
  List.find (λ x, tab_index x =? Z.min h (Z.of_nat (length allTabs) - 1))
    allTabs = Some tab →
  truthy (tab_id tab) = Some target →
  exec (Rev2.onRemoved c t w false) st =
    logged
      ([TabsQuery w; TabsUpdate target (tabs_update c target)] ++
       (if tabs_update c target then []
        else [ConsoleError "Error switching to next tab by position:"]))
      (persisted w (filter (λ id, id ≠ t) (history st w)) st).
Proof.
  intros Hhd Hhint Hq Hfind Hid. unfold exec, Rev2.onRemoved, bind.
  rewrite getRecentTabsForWindow_run, setRecentTabsForWindow_run.
  unfold get_activeTabIndex. cbn [activeTabIndex].
  rewrite bool_decide_eq_true_2 by done. rewrite Hhint.
  unfold chrome_tabs_query, bind, emit, ret. cbn [fst snd]. rewrite Hq.
  destruct allTabs as [| x xs]; [done |].
  replace (0 <? length (x :: xs))%nat with true by done.
  cbv zeta. rewrite Hfind. cbn [mbind option_bind]. rewrite Hid.
  unfold chrome_tabs_update, bind, emit, ret, console_error, emit, skip, ret.
  cbn [fst snd session activeTabIndex trace].
  unfold logged, persisted, exec. rewrite setRecentTabsForWindow_run.
  cbn [fst snd session activeTabIndex trace].
  rewrite Hhint.
  destruct (tabs_update c target); cbn [fst snd session activeTabIndex trace];
    f_equal; by rewrite <- ?app_assoc.
Qed.

(** When no tab is found at the target position, or the one found has no
    usable id, the handler stops after the query. *)
Lemma onRemoved_no_target c t w st h allTabs :
  history st w !! 0%nat = Some t →
  activeTabIndex st = Some h →
  tabs_query c w = Some allTabs →
  truthy
    (List.find (λ x, tab_index x =? Z.min h (Z.of_nat (length allTabs) - 1))
       allTabs ≫= tab_id) = None →
  exec (Rev2.onRemoved c t w false) st =
    logged [TabsQuery w]
      (persisted w (filter (λ id, id ≠ t) (history st w)) st).
Proof.
  intros Hhd Hhint Hq Hnone. unfold exec, Rev2.onRemoved, bind.
  rewrite getRecentTabsForWindow_run, setRecentTabsForWindow_run.
  unfold get_activeTabIndex. cbn [activeTabIndex].
  rewrite bool_decide_eq_true_2 by done. rewrite Hhint.
  unfold chrome_tabs_query, bind, emit, ret. cbn [fst snd]. rewrite Hq.
  unfold logged, persisted, exec. rewrite setRecentTabsForWindow_run.
  cbn [fst snd session activeTabIndex trace]. rewrite Hhint.
  destruct (0 <? length allTabs)%nat; [| reflexivity].
  cbv zeta. rewrite Hnone. reflexivity.
Qed.

Lemma onRemoved_session c t w st :
  session (exec (Rev2.onRemoved c t w false) st) =
    Some (<[w := filter (λ id, id ≠ t) (history st w)]> (table st)).
Proof.
  destruct (decide (history st w !! 0%nat = Some t)) as [Hhd | Hhd];
    [destruct (activeTabIndex st) as [h |] eqn:Hhint |].
  2, 3: by rewrite onRemoved_no_replacement by auto.
  unfold exec, Rev2.onRemoved, bind.
  rewrite getRecentTabsForWindow_run, setRecentTabsForWindow_run.
  unfold get_activeTabIndex. cbn [activeTabIndex].
  rewrite bool_decide_eq_true_2 by done. rewrite Hhint.
  unfold chrome_tabs_query, bind, emit, ret. cbn [fst snd].
  destruct (tabs_query c w) as [allTabs |]; [| reflexivity].
  destruct (0 <? length allTabs)%nat; [| reflexivity].
  cbv zeta. destruct (truthy _) as [target |]; [| reflexivity].
  unfold chrome_tabs_update, bind, emit, ret. cbn [fst snd].
  destruct (tabs_update c target); reflexivity.
Qed.

(** C4.  For a removal in a window that is not closing: the entry is
    removed from the history read at the start and the table is persisted;
    whether the tab was the most recent one is read off that same history,
    before the removal.  If it was not, or no index is known, nothing else
    happens.  If it was and the index [h] is known, the tabs of the window
    are queried, and the tab found at position [min h (number of tabs - 1)]
    is the one activated, whatever the rest of the history holds. *)
Theorem onRemoved_replaces_by_position (c : Chrome) (t w : Z) (st : State) :
  let st' := exec (Rev2.onRemoved c t w false) st in
  let tbl := <[w := filter (λ id, id ≠ t) (history st w)]> (table st) in
  session st' = Some tbl ∧
  (history st w !! 0%nat ≠ Some t ∨ activeTabIndex st = None →
   trace st' = trace st ++ [StorageSet tbl]) ∧
  (∀ h allTabs tab target,
     history st w !! 0%nat = Some t →
     activeTabIndex st = Some h →
     tabs_query c w = Some allTabs →
     List.find (λ x, tab_index x =? Z.min h (Z.of_nat (length allTabs) - 1))
       allTabs = Some tab →
     truthy (tab_id tab) = Some target →
     tab_index tab = Z.min h (Z.of_nat (length allTabs) - 1) ∧
     trace st' =
       trace st ++
       [StorageSet tbl; TabsQuery w; TabsUpdate target (tabs_update c target)]
       ++ (if tabs_update c target then []
           else [ConsoleError "Error switching to next tab by position:"])).
Proof.
  cbv zeta. split; [| split].
  - apply onRemoved_session.
  - intros Hno. by rewrite onRemoved_no_replacement.
  - intros h allTabs tab target Hhd Hhint Hq Hfind Hid. split.
    + apply find_some in Hfind as [_ Heq]. by apply Z.eqb_eq in Heq.
    + erewrite onRemoved_replacement by done.
      unfold logged. cbn [trace]. rewrite persisted_trace.
      by rewrite <- !app_assoc.
Qed.

(** C9.  A removal in a window that has no key in the table (and is not
    closing) writes the key with an empty history, and neither queries the
    tabs nor activates one. *)
Theorem onRemoved_unknown_window (c : Chrome) (t w : Z) (st : State) :
  table st !! w = None →
  let st' := exec (Rev2.onRemoved c t w false) st in
  session st' = Some (<[w := []]> (table st)) ∧
  table st' !! w = Some [] ∧
  trace st' = trace st ++ [StorageSet (<[w := []]> (table st))].
Proof.
  intros Hw. cbv zeta.
  assert (history st w = []) as Hh by (by rewrite history_table, Hw).
  rewrite onRemoved_no_replacement by (left; by rewrite Hh).
  rewrite Hh, filter_nil. split; [| split].
  - apply persisted_session.
  - rewrite table_session, persisted_session. apply lookup_insert_eq.
  - apply persisted_trace.
Qed.

(** ** Switching *)

Lemma chrome_tabs_update_run c tabId st :
  chrome_tabs_update c tabId st =
    (tabs_update c tabId, logged [TabsUpdate tabId (tabs_update c tabId)] st).
Proof. reflexivity. Qed.

Lemma scan_valid c w recentTabs good rest invalidTabIds st :
  tabs_update c good = true →
  Rev2.scan c w recentTabs (good :: rest) invalidTabIds st =
    (Switched good,
     cleaned w recentTabs invalidTabIds (logged [TabsUpdate good true] st)).
Proof.
  intros Hgood. cbn [Rev2.scan]. unfold bind.
  rewrite chrome_tabs_update_run, Hgood.
  by destruct invalidTabIds.
Qed.

Lemma scan_end c w recentTabs invalidTabIds st :
  Rev2.scan c w recentTabs [] invalidTabIds st =
    (AllStale,
     match invalidTabIds with
     | [] => st
     | _ => logged [ConsoleLog "Cleaned up stale tab IDs:"]
              (persisted w (filter (λ id, id ∉ invalidTabIds) recentTabs) st)
     end).
Proof. by destruct invalidTabIds. Qed.

(** Candidates whose activation fails are collected, and the scan goes
    on. *)
Lemma scan_stale_prefix c w recentTabs bad candidates invalidTabIds st :
  Forall (λ id, tabs_update c id = false) bad →
  Rev2.scan c w recentTabs (bad ++ candidates) invalidTabIds st =
    Rev2.scan c w recentTabs candidates (invalidTabIds ++ bad)
      (logged (map (λ id, TabsUpdate id false) bad) st).
Proof.
  intros Hbad. revert invalidTabIds st.
  induction Hbad as [| id bad Hid _ IH]; intros invalidTabIds st.
  - by rewrite app_nil_r, logged_nil.
  - cbn [app Rev2.scan]. unfold bind at 1.
    rewrite chrome_tabs_update_run, Hid, IH, logged_logged.
    by rewrite <- app_assoc.
Qed.

Lemma resolveSwitchTarget_scan c w st :
  (2 ≤ length (history st w))%nat →
  Rev2.resolveSwitchTarget c w st =
    Rev2.scan c w (history st w) (drop 1 (history st w)) [] st.
Proof.
  intros Hlen. unfold Rev2.resolveSwitchTarget, bind.
  rewrite getRecentTabsForWindow_run.
  by rewrite (proj2 (Nat.ltb_ge _ _) Hlen).
Qed.

(** The keyboard command: the window guard, then the scan. *)
Lemma switchToPreviousTab_resolved c w st :
  truthy (windows_getCurrent c) = Some w →
  Rev2.switchToPreviousTab c st =
    Rev2.resolveSwitchTarget c w (logged [WindowsGetCurrent] st).
Proof.
  intros Hw. unfold Rev2.switchToPreviousTab, bind at 1.
  unfold chrome_windows_getCurrent, bind, emit, ret. by rewrite Hw.
Qed.

Lemma switchToPreviousTab_no_window c st :
  truthy (windows_getCurrent c) = None →
  Rev2.switchToPreviousTab c st =
    (NoCurrentWindow,
     logged [WindowsGetCurrent; ConsoleLog "No current window"] st).
Proof.
  intros Hw. unfold Rev2.switchToPreviousTab, bind at 1.
  unfold chrome_windows_getCurrent, bind, emit, ret. rewrite Hw.
  unfold console_log, emit, logged. cbn. by rewrite <- app_assoc.
Qed.

(** The first candidate whose activation succeeds ends the scan; the
    candidates before it are dropped from the persisted history. *)
Lemma resolveSwitchTarget_first_valid c w st current bad good rest :
  history st w = current :: bad ++ good :: rest →
  Forall (λ id, tabs_update c id = false) bad →
  tabs_update c good = true →
  Rev2.resolveSwitchTarget c w st =
    (Switched good,
     cleaned w (history st w) bad
       (logged (map (λ id, TabsUpdate id false) bad ++ [TabsUpdate good true])
          st)).
Proof.
  intros Hh Hbad Hgood.
  rewrite resolveSwitchTarget_scan
    by (rewrite Hh; destruct bad; simpl; lia).
  rewrite Hh at 2. cbn [drop]. rewrite drop_0.
  rewrite scan_stale_prefix, scan_valid, logged_logged by done.
  done.
Qed.

(** C2.  With the history [5, 3, 9] for the window, tab 3 gone and tab 9
    still there, the scan goes past the failed activation of 3, activates
    9, and persists [5, 9] as the history of the window. *)
Theorem resolveSwitchTarget_skips_stale (c : Chrome) (w : Z) (st : State) :
  history st w = [5; 3; 9] →
  tabs_update c 3 = false →
  tabs_update c 9 = true →
  let st' := exec (Rev2.resolveSwitchTarget c w) st in
  result (Rev2.resolveSwitchTarget c w) st = Switched 9 ∧
  session st' = Some (<[w := [5; 9]]> (table st)) ∧
  history st' w = [5; 9] ∧
  trace st' =
    trace st ++
    [TabsUpdate 3 false; TabsUpdate 9 true;
     StorageSet (<[w := [5; 9]]> (table st))].
Proof.
  intros Hh H3 H9. cbv zeta. unfold exec, result.
  rewrite (resolveSwitchTarget_first_valid c w st 5 [3] 9 [])
    by (done || by constructor).
  rewrite Hh. cbn [fst snd cleaned map app].
  replace (filter (λ id : Z, id ∉ [3]) [5; 3; 9]) with [5; 9]
    by (by vm_compute).
  split; [done |]. split; [by rewrite persisted_session, table_logged |].
  split; [apply persisted_history |].
  rewrite persisted_trace, table_logged. unfold logged. cbn [trace].
  by rewrite <- app_assoc.
Qed.

Lemma resolveSwitchTarget_all_stale_run c w st :
  (2 ≤ length (history st w))%nat →
  Forall (λ id, tabs_update c id = false) (drop 1 (history st w)) →
  Rev2.resolveSwitchTarget c w st =
    (AllStale,
     logged [ConsoleLog "Cleaned up stale tab IDs:"]
       (persisted w
          (filter (λ id, id ∉ drop 1 (history st w)) (history st w))
          (logged (map (λ id, TabsUpdate id false) (drop 1 (history st w)))
             st))).
Proof.
  intros Hlen Hbad. rewrite resolveSwitchTarget_scan by done.
  pose proof (scan_stale_prefix c w (history st w) _ [] [] st Hbad) as Hs.
  rewrite app_nil_r in Hs. rewrite Hs, scan_end. cbn [app].
  destruct (drop 1 (history st w)) as [| id bad] eqn:Hdrop; [| done].
  destruct (history st w) as [| ? [| ? ?]]; simpl in *; [lia | lia | done].
Qed.

(** C3.  When the history has at least two entries and the activation of
    every entry after the first fails, all of them are tried, the history
    is persisted without them, and the function ends after the loop.  A
    history [5, 3] becomes [5]. *)
Theorem resolveSwitchTarget_all_stale (c : Chrome) (w : Z) (st : State) :
  (2 ≤ length (history st w))%nat →
  Forall (λ id, tabs_update c id = false) (drop 1 (history st w)) →
  let st' := exec (Rev2.resolveSwitchTarget c w) st in
  let kept := filter (λ id, id ∉ drop 1 (history st w)) (history st w) in
  result (Rev2.resolveSwitchTarget c w) st = AllStale ∧
  session st' = Some (<[w := kept]> (table st)) ∧
  history st' w = kept ∧
  Forall (λ id, id ∉ history st' w) (drop 1 (history st w)) ∧
  trace st' =
    trace st ++ map (λ id, TabsUpdate id false) (drop 1 (history st w)) ++
    [StorageSet (<[w := kept]> (table st));
     ConsoleLog "Cleaned up stale tab IDs:"] ∧
  (history st w = [5; 3] → history st' w = [5]).
Proof.
  intros Hlen Hbad. cbv zeta. unfold exec, result.
  rewrite resolveSwitchTarget_all_stale_run by done. cbn [fst snd].
  set (kept := filter (λ id, id ∉ drop 1 (history st w)) (history st w)).
  rewrite history_logged, persisted_history.
  split; [done |]. split; [done |]. split; [done |]. split; [| split].
  - apply Forall_forall. intros x Hx Hin.
    by apply list_elem_of_filter in Hin as [Hnin _].
  - unfold logged. cbn [trace]. rewrite persisted_trace. cbn [trace].
    by rewrite <- !app_assoc.
  - intros Hh. unfold kept. rewrite Hh. by vm_compute.
Qed.

(** C5.  With fewer than two entries in the history of the window, the
    function logs that there is not enough history and returns: it calls
    neither [chrome.tabs.update] nor the storage setter, and the stored
    table is the one it found. *)
Theorem resolveSwitchTarget_not_enough_history (c : Chrome) (w : Z)
  (st : State) :
  (length (history st w) < 2)%nat →
  let st' := exec (Rev2.resolveSwitchTarget c w) st in
  result (Rev2.resolveSwitchTarget c w) st = NotEnoughHistory ∧
  session st' = session st ∧
  trace st' =
    trace st ++
    [ConsoleLog "Not enough tabs in history for this window to switch"].
Proof.
  intros Hlen. cbv zeta.
  unfold exec, result, Rev2.resolveSwitchTarget, bind.
  rewrite getRecentTabsForWindow_run.
  by rewrite (proj2 (Nat.ltb_lt _ _) Hlen).
Qed.

(** C10.  When the focused window is [w], its history has an entry [p] at
    position 1 and the activation of [p] succeeds, the two revisions of
    [switchToPreviousTab] do the same: they end in the same state with the
    same outcome, the only tab activated is [p], and the stored table is
    not written. *)
Theorem switchToPreviousTab_revisions_agree (c : Chrome) (w p : Z)
  (st : State) :
  truthy (windows_getCurrent c) = Some w →
  history st w !! 1%nat = Some p →
  tabs_update c p = true →
  Rev1.switchToPreviousTab c st = Rev2.switchToPreviousTab c st ∧
  Rev2.switchToPreviousTab c st =
    (Switched p, logged [WindowsGetCurrent; TabsUpdate p true] st) ∧
  session (exec (Rev1.switchToPreviousTab c) st) = session st ∧
  session (exec (Rev2.switchToPreviousTab c) st) = session st.
Proof.
  intros Hw Hp Hok.
  assert (Rev2.switchToPreviousTab c st =
    (Switched p, logged [WindowsGetCurrent; TabsUpdate p true] st)) as H2.
  { rewrite (switchToPreviousTab_resolved c w) by done.
    destruct (history st w) as [| current [| p' rest]] eqn:Hh; [done.. |].
    simplify_eq/=.
    rewrite (resolveSwitchTarget_first_valid c w _ current [] p rest)
      by done.
    cbn [cleaned map app]. by rewrite logged_logged. }
  assert (Rev1.switchToPreviousTab c st =
    (Switched p, logged [WindowsGetCurrent; TabsUpdate p true] st)) as H1.
  { unfold Rev1.switchToPreviousTab, bind at 1.
    unfold chrome_windows_getCurrent, bind, emit, ret. rewrite Hw.
    cbn [fst snd]. fold (logged [WindowsGetCurrent] st).
    unfold Rev1.resolveSwitchTarget, bind.
    rewrite getRecentTabsForWindow_run, history_logged.
    destruct (history st w) as [| current [| p' rest]] eqn:Hh; [done.. |].
    cbn in Hp. injection Hp as ->.
    change (length (current :: p :: rest) <? 2)%nat with false.
    change ((current :: p :: rest) !! 1%nat) with (Some p).
    cbv beta iota. rewrite chrome_tabs_update_run, Hok.
    by rewrite logged_logged. }
  unfold exec. rewrite H1, H2. done.
Qed.

(** ** Further facts about the handlers *)

(** After a removal the tab is nowhere in the history of its window, so
    the comparison with the first entry has to use the history read before
    the removal. *)
Lemma onRemoved_gone c t w st :
  t ∉ history (exec (Rev2.onRemoved c t w false) st) w.
Proof.
  pose proof (onRemoved_session c t w st) as Hs.
  erewrite history_insert_eq by exact Hs.
  intros Hin. by apply list_elem_of_filter in Hin as [Hne _].
Qed.

(** After the window was removed, a read of its history gives the empty
    list. *)
Lemma onWindowRemoved_history w st :
  history (exec (Rev2.onWindowRemoved w) st) w = [].
Proof.
  unfold exec, Rev2.onWindowRemoved, bind, setTabsByWindow.
  rewrite history_table, table_session. cbn.
  by rewrite lookup_delete_eq.
Qed.

(** ** The theorems at concrete inputs *)

Lemma activations_preserve_invariant_witness :
  HistoryInv (history fresh 1) ∧
  HistoryInv (history (handleActivations six_activations fresh) 1) ∧
  history (handleActivations six_activations fresh) 1 = [2; 5; 4; 3].
Proof.
  assert (HistoryInv (history fresh 1)) as Hinv.
  { split; [vm_compute; lia | apply NoDup_nil_2]. }
  split; [exact Hinv |]. split; [| reflexivity].
  exact (activations_preserve_invariant six_activations fresh 1 Hinv).
Defined.

Lemma resolveSwitchTarget_skips_stale_witness :
  history (st_5_3_9 None) 1 = [5; 3; 9] ∧
  tabs_update (browser tabs_9) 3 = false ∧
  tabs_update (browser tabs_9) 9 = true ∧
  result (Rev2.resolveSwitchTarget (browser tabs_9) 1)
    (st_5_3_9 None) = Switched 9 ∧
  history (exec (Rev2.resolveSwitchTarget (browser tabs_9) 1)
             (st_5_3_9 None)) 1 = [5; 9].
Proof.
  assert (history (st_5_3_9 None) 1 = [5; 3; 9]) as Hh
    by reflexivity.
  assert (tabs_update (browser tabs_9) 3 = false) as H3 by reflexivity.
  assert (tabs_update (browser tabs_9) 9 = true) as H9 by reflexivity.
  destruct (resolveSwitchTarget_skips_stale (browser tabs_9) 1
              (st_5_3_9 None) Hh H3 H9) as (Hres & _ & Hhist & _).
  split; [exact Hh |]. split; [exact H3 |]. split; [exact H9 |].
  split; [exact Hres | exact Hhist].
Defined.

Lemma resolveSwitchTarget_all_stale_witness :
  (2 ≤ length (history st_5_3 1))%nat ∧
  Forall (λ id, tabs_update (browser tabs_9) id = false)
    (drop 1 (history st_5_3 1)) ∧
  result (Rev2.resolveSwitchTarget (browser tabs_9) 1)
    st_5_3 = AllStale ∧
  history (exec (Rev2.resolveSwitchTarget (browser tabs_9) 1)
             st_5_3) 1 = [5].
Proof.
  assert (2 ≤ length (history st_5_3 1))%nat as Hlen
    by (vm_compute; lia).
  assert (Forall (λ id, tabs_update (browser tabs_9) id = false)
            (drop 1 (history st_5_3 1))) as Hbad
    by (repeat constructor).
  destruct (resolveSwitchTarget_all_stale (browser tabs_9) 1
              st_5_3 Hlen Hbad)
    as (Hres & _ & _ & _ & _ & Hhist).
  split; [exact Hlen |]. split; [exact Hbad |]. split; [exact Hres |].
  exact (Hhist eq_refl).
Defined.

Lemma onRemoved_replaces_by_position_witness :
  let st := st_5_3_9 (Some 2) in
  let c := browser tabs_9_3_7 in
  history st 1 !! 0%nat = Some 5 ∧
  history st 1 !! 1%nat = Some 3 ∧
  activeTabIndex st = Some 2 ∧
  tabs_query c 1 = Some tabs_9_3_7 ∧
  List.find (λ x, tab_index x =? Z.min 2 (Z.of_nat (length tabs_9_3_7) - 1))
    tabs_9_3_7 = Some (mkTab (Some 7) 2) ∧
  truthy (tab_id (mkTab (Some 7) 2)) = Some 7 ∧
  trace (exec (Rev2.onRemoved c 5 1 false) st) =
    [StorageSet {[ 1 := [3; 9] ]}; TabsQuery 1; TabsUpdate 7 true] ∧
  history (exec (Rev2.onRemoved c 5 1 false) st) 1 = [3; 9].
Proof.
  intros st c.
  assert (history st 1 !! 0%nat = Some 5) as Hhd by reflexivity.
  assert (activeTabIndex st = Some 2) as Hhint by reflexivity.
  assert (tabs_query c 1 = Some tabs_9_3_7) as Hq by reflexivity.
  assert (List.find
            (λ x, tab_index x =? Z.min 2 (Z.of_nat (length tabs_9_3_7) - 1))
            tabs_9_3_7 = Some (mkTab (Some 7) 2)) as Hfind by reflexivity.
  assert (truthy (tab_id (mkTab (Some 7) 2)) = Some 7) as Hid by reflexivity.
  destruct (onRemoved_replaces_by_position c 5 1 st) as (Hs & _ & Hpos).
  destruct (Hpos 2 tabs_9_3_7 (mkTab (Some 7) 2) 7 Hhd Hhint Hq Hfind Hid)
    as [_ Htrace].
  split; [exact Hhd |]. split; [reflexivity |]. split; [exact Hhint |].
  split; [exact Hq |]. split; [exact Hfind |]. split; [exact Hid |]. split.
  - rewrite Htrace. reflexivity.
  - erewrite history_insert_eq by exact Hs. reflexivity.
Defined.

Lemma resolveSwitchTarget_not_enough_history_witness :
  (length (history st_5 1) < 2)%nat ∧
  result (Rev2.resolveSwitchTarget (browser tabs_9) 1) st_5
    = NotEnoughHistory ∧
  session (exec (Rev2.resolveSwitchTarget (browser tabs_9) 1)
             st_5) = session st_5 ∧
  history (exec (Rev2.resolveSwitchTarget (browser tabs_9) 1)
             st_5) 1 = [5].
Proof.
  assert (length (history st_5 1) < 2)%nat as Hlen
    by (vm_compute; lia).
  destruct (resolveSwitchTarget_not_enough_history (browser tabs_9) 1
              st_5 Hlen) as (Hres & Hs & _).
  split; [exact Hlen |]. split; [exact Hres |]. split; [exact Hs |].
  rewrite history_table, (table_session (exec _ _)), Hs. reflexivity.
Defined.

Lemma onRemoved_unknown_window_witness :
  table fresh !! 4 = None ∧
  table (exec (Rev2.onRemoved (browser tabs_9) 8 4 false) fresh) !! 4
    = Some [] ∧
  trace (exec (Rev2.onRemoved (browser tabs_9) 8 4 false) fresh)
    = [StorageSet {[ 4 := [] ]}].
Proof.
  assert (table fresh !! 4 = None) as Hw by reflexivity.
  destruct (onRemoved_unknown_window (browser tabs_9) 8 4 fresh Hw)
    as (_ & Hlook & Htrace).
  split; [exact Hw |]. split; [exact Hlook |].
  rewrite Htrace. reflexivity.
Defined.

Lemma switchToPreviousTab_revisions_agree_witness :
  let st := st_5_3_9 None in
  let c := browser tabs_9_3_7 in
  truthy (windows_getCurrent c) = Some 1 ∧
  history st 1 !! 1%nat = Some 3 ∧
  tabs_update c 3 = true ∧
  Rev1.switchToPreviousTab c st = Rev2.switchToPreviousTab c st ∧
  result (Rev2.switchToPreviousTab c) st = Switched 3 ∧
  session (exec (Rev2.switchToPreviousTab c) st) = Some {[ 1 := [5; 3; 9] ]}.
Proof.
  intros st c.
  assert (truthy (windows_getCurrent c) = Some 1) as Hw by reflexivity.
  assert (history st 1 !! 1%nat = Some 3) as Hp by reflexivity.
  assert (tabs_update c 3 = true) as Hok by reflexivity.
  destruct (switchToPreviousTab_revisions_agree c 1 3 st Hw Hp Hok)
    as (Hagree & Hrun & _ & Hs).
  split; [exact Hw |]. split; [exact Hp |]. split; [exact Hok |].
  split; [exact Hagree |]. split.
  - unfold result. rewrite Hrun. reflexivity.
  - rewrite Hs. reflexivity.
Defined.

(** * Further properties of the handlers *)

(** ** The storage helpers *)

(** X1.  What [setRecentTabsForWindow] writes for a window is what
    [getRecentTabsForWindow] reads back for it, also when nothing was
    stored before; the histories of the other windows are as they were. *)
Theorem setRecentTabsForWindow_read_back (w w' : Z) (tabs : list Z)
  (st : State) :
  history (exec (setRecentTabsForWindow w tabs) st) w' =
    if decide (w = w') then tabs else history st w'.
Proof.
  fold (persisted w tabs st). case_decide as Hw.
  - subst w'. apply persisted_history.
  - eapply history_insert_ne; [done | apply persisted_session].
Qed.

(** ** Window removal *)

(** X2.  After a window was removed its key is gone from the table, a read
    of its history gives the empty list, and the other histories are as
    they were.  Removing it again, or removing a window that has no key,
    stores the same table. *)
Theorem onWindowRemoved_forgets (w : Z) (st : State) :
  let st' := exec (Rev2.onWindowRemoved w) st in
  table st' !! w = None ∧
  (∀ w', history st' w' = if decide (w' = w) then [] else history st w') ∧
  table (exec (Rev2.onWindowRemoved w) st') = table st'.
Proof.
  cbv zeta.
  assert (∀ s, table (exec (Rev2.onWindowRemoved w) s) = delete w (table s))
    as Htable by reflexivity.
  split; [| split].
  - rewrite Htable. apply lookup_delete_eq.
  - intros w'. rewrite !history_table, Htable. case_decide as Hw.
    + subst w'. by rewrite lookup_delete_eq.
    + by rewrite lookup_delete_ne.
  - rewrite !Htable. apply delete_id, lookup_delete_eq.
Qed.

(** ** Start-up *)

Lemma onInstalled_table windows st :
  table (exec (onInstalled windows) st) = foldl onInstalled_step ∅ windows.
Proof. reflexivity. Qed.

Lemma truthy_Some n v : truthy n = Some v → n = Some v ∧ v ≠ 0.
Proof.
  destruct n as [x |]; [| done]. cbn. case_decide; [done |].
  intros [= ->]. done.
Qed.

Lemma onInstalled_step_lookup acc window w l :
  onInstalled_step acc window !! w = Some l →
  acc !! w = Some l ∨ installed_entry [window] w l.
Proof.
  unfold onInstalled_step.
  destruct (truthy (window_id window)) as [wid |] eqn:Hid; [| by left].
  destruct (window_tabs window) as [tabs |] eqn:Htabs; [| by left].
  cbv zeta.
  destruct (List.find wtab_active tabs) as [wt |] eqn:Hfind; [| by left].
  cbn. destruct (truthy (tab_id (wtab wt))) as [t |] eqn:Ht; [| by left].
  apply truthy_Some in Hid as [Hid Hwid], Ht as [Ht Ht0].
  destruct (decide (wid = w)) as [-> | Hne].
  - rewrite lookup_insert_eq. intros [= <-]. right.
    exists t, window, tabs, wt. pose proof Hfind as Hfind'.
    apply find_some in Hfind' as [_ Hact].
    split_and!; try done. apply list_elem_of_here.
  - rewrite lookup_insert_ne by done. by left.
Qed.

Lemma installed_entry_mono ws ws' w l :
  (∀ x, x ∈ ws → x ∈ ws') → installed_entry ws w l → installed_entry ws' w l.
Proof.
  intros Hsub (t & window & tabs & wt & ? & ? & ? & Hin & ?).
  exists t, window, tabs, wt. split_and!; try tauto. by apply Hsub.
Qed.

Lemma foldl_onInstalled_step_lookup ws acc w l :
  foldl onInstalled_step acc ws !! w = Some l →
  acc !! w = Some l ∨ installed_entry ws w l.
Proof.
  revert acc. induction ws as [| window ws IH]; intros acc Hl; [by left |].
  cbn in Hl. apply IH in Hl as [Hl | Hl].
  - apply onInstalled_step_lookup in Hl as [Hl | Hl]; [by left | right].
    eapply installed_entry_mono; [| exact Hl].
    intros x Hx. apply list_elem_of_singleton in Hx as ->. by left.
  - right. eapply installed_entry_mono; [| exact Hl].
    intros x Hx. by right.
Qed.

(** X3.  Every entry of the table stored at start-up belongs to a window
    that Chrome listed with a usable id, and holds exactly one tab: the id
    of the first tab of that window marked active.  Nothing of an earlier
    table is left. *)
Theorem onInstalled_entries (windows : list Window) (st : State) (w : Z)
  (l : list Z) :
  table (exec (onInstalled windows) st) !! w = Some l →
  installed_entry windows w l.
Proof.
  rewrite onInstalled_table. intros Hl.
  apply foldl_onInstalled_step_lookup in Hl as [Hl | Hl]; [| done].
  by rewrite lookup_empty in Hl.
Qed.

(** X4.  Whatever was stored before, after the start-up listener every
    window's history has at most 4 entries and no duplicate. *)
Theorem onInstalled_invariant (windows : list Window) (st : State) :
  AllInv (exec (onInstalled windows) st).
Proof.
  intros w. rewrite history_table, onInstalled_table.
  destruct (foldl onInstalled_step ∅ windows !! w) as [l |] eqn:Hl.
  - apply foldl_onInstalled_step_lookup in Hl as [Hl | Hl].
    + by rewrite lookup_empty in Hl.
    + destruct Hl as (t & _ & _ & _ & -> & _). cbn.
      split; [cbn; lia | apply NoDup_singleton].
  - cbn. split; [cbn; lia | apply NoDup_nil_2].
Qed.

Lemma foldl_onInstalled_step_other ws acc w :
  Forall (λ window, window_id window ≠ Some w) ws →
  foldl onInstalled_step acc ws !! w = acc !! w.
Proof.
  intros Hws. revert acc.
  induction Hws as [| window ws Hwin _ IH]; intros acc; [done |].
  cbn. rewrite IH. unfold onInstalled_step.
  destruct (truthy (window_id window)) as [wid |] eqn:Hid; [| done].
  apply truthy_Some in Hid as [Hid _].
  destruct (window_tabs window); [| done]. cbv zeta.
  destruct (truthy _); [| done].
  apply lookup_insert_ne. congruence.
Qed.

(** X5.  A listed window with a usable id whose first active tab has a
    usable id gets that tab as its whole history, provided no window
    listed after it has the same id. *)
Theorem onInstalled_window (before after : list Window) (window : Window)
  (tabs : list WindowTab) (w t : Z) (st : State) :
  truthy (window_id window) = Some w →
  window_tabs window = Some tabs →
  truthy (List.find wtab_active tabs ≫= λ x, tab_id (wtab x)) = Some t →
  Forall (λ x, window_id x ≠ Some w) after →
  history (exec (onInstalled (before ++ window :: after)) st) w = [t].
Proof.
  intros Hid Htabs Ht Hafter.
  rewrite history_table, onInstalled_table, foldl_app. cbn [foldl].
  rewrite foldl_onInstalled_step_other by done.
  unfold onInstalled_step. rewrite Hid, Htabs. cbv zeta. rewrite Ht.
  by rewrite lookup_insert_eq.
Qed.

(** ** The first revision *)

Lemma Rev1_onActivated_run tabId w st :
  Rev1.onActivated tabId w st =
    ((), persisted w (activated tabId (history st w)) st).
Proof. reflexivity. Qed.

(** X6.  The two revisions of the activation listener store the same
    table.  The first neither asks the browser about the tab nor touches
    the remembered tab index. *)
Theorem onActivated_revisions_agree (c : Chrome) (t w : Z) (st : State) :
  session (exec (Rev1.onActivated t w) st) =
    session (exec (Rev2.onActivated c t w) st) ∧
  activeTabIndex (exec (Rev1.onActivated t w) st) = activeTabIndex st ∧
  trace (exec (Rev1.onActivated t w) st) =
    trace st ++ [StorageSet (<[w := activated t (history st w)]> (table st))].
Proof.
  unfold exec at 1 3 4. rewrite Rev1_onActivated_run, onActivated_session.
  cbn [snd]. by rewrite persisted_session, persisted_trace.
Qed.

Lemma filter_ne_cons_NoDup (t : Z) (l : list Z) :
  NoDup (t :: l) → filter (λ id, id ≠ t) (t :: l) = l.
Proof.
  intros [Hnin _]%NoDup_cons.
  rewrite filter_cons_False by (intros H; by apply H).
  apply filter_Forall_id, Forall_forall. by intros x Hx ->.
Qed.

(** X7.  In the first revision, closing the tab at the front of a
    duplicate-free history with a further entry persists the rest of the
    history and activates its first entry, the tab that was active
    before. *)
Theorem Rev1_onRemoved_next_in_history (c : Chrome) (t next w : Z)
  (rest : list Z) (st : State) :
  history st w = t :: next :: rest →
  NoDup (history st w) →
  let st' := exec (Rev1.onRemoved c t w false) st in
  history st' w = next :: rest ∧
  trace st' =
    trace st ++
    [StorageSet (<[w := next :: rest]> (table st));
     TabsUpdate next (tabs_update c next)] ++
    (if tabs_update c next then []
     else [ConsoleError "Error switching to next tab in history:"]).
Proof.
  intros Hh Hnd. cbv zeta. unfold exec, Rev1.onRemoved, bind.
  rewrite getRecentTabsForWindow_run, setRecentTabsForWindow_run.
  rewrite Hh in Hnd |- *. rewrite filter_ne_cons_NoDup by done.
  rewrite bool_decide_eq_true_2 by done.
  change (true && (0 <? length (next :: rest))%nat) with true.
  change ((next :: rest) !! 0%nat) with (Some next). cbv beta iota.
  rewrite chrome_tabs_update_run.
  destruct (tabs_update c next); cbn;
    (split; [by rewrite lookup_insert_eq | by rewrite <- !app_assoc]).
Qed.

(** In the first revision, closing a tab that is not at the front of the
    history, or the only remembered tab, activates nothing. *)
Lemma Rev1_onRemoved_no_replacement c t w st :
  history st w !! 0%nat ≠ Some t ∨
    filter (λ id, id ≠ t) (history st w) = [] →
  exec (Rev1.onRemoved c t w false) st =
    persisted w (filter (λ id, id ≠ t) (history st w)) st.
Proof.
  intros Hno. unfold exec, Rev1.onRemoved, bind.
  rewrite getRecentTabsForWindow_run, setRecentTabsForWindow_run.
  destruct Hno as [Hne | Hnil].
  - rewrite bool_decide_eq_false_2 by done. reflexivity.
  - rewrite Hnil. rewrite andb_false_r. reflexivity.
Qed.





(** ** The scan of the second revision, in general *)



(** What the loop leaves in the state: the ids collected as invalid are a
    failing prefix of the candidates, and the table is written only when
    there is one. *)
Lemma scan_state c w recentTabs candidates invalidTabIds st :
  ∃ bad,
    bad `prefix_of` candidates ∧
    Forall (λ id, tabs_update c id = false) bad ∧
    activeTabIndex
      (exec (Rev2.scan c w recentTabs candidates invalidTabIds) st) =
      activeTabIndex st ∧
    session (exec (Rev2.scan c w recentTabs candidates invalidTabIds) st) =
      match invalidTabIds ++ bad with
      | [] => session st
      | invalid =>
          Some (<[w := filter (λ id, id ∉ invalid) recentTabs]> (table st))
      end.
Proof.
  revert invalidTabIds st.
  induction candidates as [| tabId rest IH]; intros invalidTabIds st.
  - exists []. split; [done |]. split; [done |].
    unfold exec. rewrite scan_end, app_nil_r. by destruct invalidTabIds.
  - destruct (tabs_update c tabId) eqn:Hok.
    + exists []. split; [apply prefix_nil |]. split; [done |].
      unfold exec. rewrite scan_valid, app_nil_r by done.
      by destruct invalidTabIds.
    + destruct (IH (invalidTabIds ++ [tabId])
                  (logged [TabsUpdate tabId false] st))
        as (bad & Hpre & Hbad & Hidx & Hs).
      exists (tabId :: bad). split; [by apply prefix_cons |].
      split; [by constructor |].
      unfold exec in *. cbn [Rev2.scan]. unfold bind at 1 3.
      rewrite chrome_tabs_update_run, Hok.
      split; [exact Hidx |]. rewrite Hs, <- app_assoc. done.
Qed.

(** The same for the whole of [resolveSwitchTarget]. *)
Lemma resolveSwitchTarget_state c w st :
  ∃ bad,
    bad `prefix_of` drop 1 (history st w) ∧
    Forall (λ id, tabs_update c id = false) bad ∧
    activeTabIndex (exec (Rev2.resolveSwitchTarget c w) st) =
      activeTabIndex st ∧
    session (exec (Rev2.resolveSwitchTarget c w) st) =
      match bad with
      | [] => session st
      | _ => Some (<[w := filter (λ id, id ∉ bad) (history st w)]> (table st))
      end.
Proof.
  destruct (length (history st w) <? 2)%nat eqn:Hlen.
  - exists []. split; [apply prefix_nil |]. split; [done |].
    unfold exec, Rev2.resolveSwitchTarget, bind.
    rewrite getRecentTabsForWindow_run. by rewrite Hlen.
  - apply Nat.ltb_ge in Hlen. unfold exec.
    rewrite resolveSwitchTarget_scan by done.
    destruct (scan_state c w (history st w) (drop 1 (history st w)) [] st)
      as (bad & Hpre & Hbad & Hidx & Hs).
    exists bad. split; [done |]. split; [done |]. split; [done |].
    unfold exec in Hs. rewrite Hs. by destruct bad.
Qed.

Lemma filter_not_in_nil (l : list Z) : filter (λ id, id ∉ []) l = l.
Proof.
  apply filter_Forall_id, Forall_forall. intros x _. apply not_elem_of_nil.
Qed.

Lemma resolveSwitchTarget_history c w st :
  ∃ bad,
    bad `prefix_of` drop 1 (history st w) ∧
    Forall (λ id, tabs_update c id = false) bad ∧
    ∀ w', history (exec (Rev2.resolveSwitchTarget c w) st) w' =
            if decide (w' = w)
            then filter (λ id, id ∉ bad) (history st w)
            else history st w'.
Proof.
  destruct (resolveSwitchTarget_state c w st) as (bad & Hpre & Hbad & _ & Hs).
  exists bad. split; [done |]. split; [done |]. intros w'.
  destruct bad as [| b bad].
  - rewrite filter_not_in_nil. rewrite !history_table, !table_session, Hs.
    by case_decide; subst.
  - case_decide as Hw.
    + subst w'. eapply history_insert_eq, Hs.
    + eapply history_insert_ne; [| exact Hs]. done.
Qed.

Lemma filter_filter_implied {A} (P Q : A → Prop) `{!∀ x, Decision (P x)}
  `{!∀ x, Decision (Q x)} (l : list A) :
  Forall (λ x, P x → Q x) l → filter P (filter Q l) = filter P l.
Proof.
  induction 1 as [| x l Hx _ IH]; [done |].
  destruct (decide (Q x)) as [HQ | HQ].
  - rewrite (filter_cons_True Q) by done.
    destruct (decide (P x)) as [HP | HP].
    + rewrite !(filter_cons_True P) by done. by rewrite IH.
    + rewrite !(filter_cons_False P) by done. done.
  - rewrite (filter_cons_False Q) by done.
    rewrite (filter_cons_False P) by (intros HP; by apply HQ, Hx). done.
Qed.

(** X10.  Whatever the browser answers, a run of [switchToPreviousTab] for
    a focused window changes no other window's history, and changes this
    window's history only by dropping ids whose activation it tried and saw
    fail: the ids dropped are a run of failing candidates from position 1
    on, and the entries whose activation succeeds are the same as before,
    in the same order. *)
Theorem resolveSwitchTarget_drops_only_stale (c : Chrome) (w : Z)
  (st : State) :
  let st' := exec (Rev2.resolveSwitchTarget c w) st in
  ∃ bad,
    bad `prefix_of` drop 1 (history st w) ∧
    Forall (λ id, tabs_update c id = false) bad ∧
    (∀ w', history st' w' =
             if decide (w' = w)
             then filter (λ id, id ∉ bad) (history st w)
             else history st w') ∧
    filter (λ id, tabs_update c id = true) (history st' w) =
      filter (λ id, tabs_update c id = true) (history st w).
Proof.
  cbv zeta.
  destruct (resolveSwitchTarget_history c w st) as (bad & Hpre & Hbad & Hh).
  exists bad. split; [done |]. split; [done |]. split; [done |].
  rewrite Hh. rewrite decide_True by done.
  apply filter_filter_implied, Forall_forall. intros x _ Hok Hin.
  rewrite Forall_forall in Hbad. apply Hbad in Hin. congruence.
Qed.

(** ** What each handler does to the histories *)

(** A non-closing removal ends in the state in which the history was
    persisted, with further effects recorded. *)
Lemma onRemoved_logged c t w st :
  ∃ es,
    exec (Rev2.onRemoved c t w false) st =
      logged es (persisted w (filter (λ id, id ≠ t) (history st w)) st).
Proof.
  unfold exec, Rev2.onRemoved, bind.
  rewrite getRecentTabsForWindow_run, setRecentTabsForWindow_run.
  set (st1 := mkState _ _ _).
  change (persisted w (filter (λ id, id ≠ t) (history st w)) st) with st1.
  unfold get_activeTabIndex.
  destruct (bool_decide _), (activeTabIndex st1) as [h |];
    try (exists []; rewrite logged_nil; reflexivity).
  unfold chrome_tabs_query, bind, emit, ret. cbn [fst snd].
  fold (logged [TabsQuery w] st1).
  destruct (tabs_query c w) as [allTabs |];
    [| exists ([TabsQuery w] ++
               [ConsoleError "Error switching to next tab by position:"]);
       rewrite <- logged_logged; reflexivity].
  destruct (0 <? length allTabs)%nat; [| eexists; reflexivity].
  cbv zeta. destruct (truthy _) as [target |]; [| eexists; reflexivity].
  rewrite chrome_tabs_update_run.
  destruct (tabs_update c target); cbn [snd].
  - eexists. rewrite logged_logged. reflexivity.
  - exists (([TabsQuery w] ++ [TabsUpdate target false]) ++
            [ConsoleError "Error switching to next tab by position:"]).
    rewrite <- !logged_logged. reflexivity.
Qed.

Lemma onRemoved_history c t w closing st w' :
  history (exec (Rev2.onRemoved c t w closing) st) w' =
    if closing then history st w'
    else if decide (w' = w) then filter (λ id, id ≠ t) (history st w)
         else history st w'.
Proof.
  destruct closing; [done |].
  destruct (onRemoved_logged c t w st) as [es ->].
  rewrite history_logged. case_decide as Hw.
  - subst w'. apply persisted_history.
  - eapply history_insert_ne; [| apply persisted_session]. done.
Qed.

Lemma onWindowRemoved_history_all w st w' :
  history (exec (Rev2.onWindowRemoved w) st) w' =
    if decide (w' = w) then [] else history st w'.
Proof.
  rewrite !history_table.
  change (table (exec (Rev2.onWindowRemoved w) st)) with (delete w (table st)).
  case_decide as Hw.
  - subst w'. by rewrite lookup_delete_eq.
  - by rewrite lookup_delete_ne.
Qed.

Lemma switchToPreviousTab_sublist c st w' :
  history (exec (Rev2.switchToPreviousTab c) st) w' `sublist_of` history st w'.
Proof.
  destruct (truthy (windows_getCurrent c)) as [w |] eqn:Hw.
  - unfold exec. rewrite (switchToPreviousTab_resolved c w) by done.
    destruct (resolveSwitchTarget_history c w (logged [WindowsGetCurrent] st))
      as (bad & _ & _ & Hh).
    unfold exec in Hh. rewrite Hh, !history_logged.
    case_decide; [subst; apply sublist_filter | done].
  - unfold exec. by rewrite switchToPreviousTab_no_window.
Qed.

Lemma onCommand_exec c command st :
  exec (Rev2.onCommand c command) st =
    if decide (command = "switch-tabs")
    then exec (Rev2.switchToPreviousTab c) st else st.
Proof.
  unfold exec, Rev2.onCommand. case_decide; [| done].
  unfold bind. by destruct (Rev2.switchToPreviousTab c st).
Qed.

(** X11.  Only the activation and start-up listeners ever add to a
    history: a tab removal, a window removal and the keyboard command
    (whatever the command string, the focused window and the browser's
    answers) leave every window's history a sublist of what it was. *)
Theorem handlers_only_shrink (st : State) (w : Z) :
  (∀ c t w0 closing,
     history (exec (Rev2.onRemoved c t w0 closing) st) w
       `sublist_of` history st w) ∧
  (∀ w0,
     history (exec (Rev2.onWindowRemoved w0) st) w `sublist_of` history st w) ∧
  (∀ c command,
     history (exec (Rev2.onCommand c command) st) w
       `sublist_of` history st w).
Proof.
  split; [| split].
  - intros c t w0 closing. rewrite onRemoved_history.
    destruct closing; [done |].
    case_decide; [subst; apply sublist_filter | done].
  - intros w0. rewrite onWindowRemoved_history_all.
    case_decide; [apply sublist_nil_l | done].
  - intros c command. rewrite onCommand_exec.
    case_decide; [apply switchToPreviousTab_sublist | done].
Qed.

Lemma HistoryInv_sublist l l' :
  l' `sublist_of` l → HistoryInv l → HistoryInv l'.
Proof.
  intros Hsub [Hlen Hnd]. split.
  - apply sublist_length in Hsub. lia.
  - by eapply sublist_NoDup.
Qed.

Lemma handle_inv st ev w :
  (∀ w', HistoryInv (history st w')) → HistoryInv (history (handle st ev) w).
Proof.
  intros Hinv. destruct ev as [windows | c t w0 | c t w0 closing | w0 | c cmd];
    cbn [handle].
  - rewrite history_table, onInstalled_table.
    destruct (foldl onInstalled_step ∅ windows !! w) as [l |] eqn:Hl.
    + apply foldl_onInstalled_step_lookup in Hl as [Hl | Hl].
      * by rewrite lookup_empty in Hl.
      * destruct Hl as (t & _ & _ & _ & -> & _). cbn.
        split; [cbn; lia | apply NoDup_singleton].
    + cbn. split; [cbn; lia | apply NoDup_nil_2].
  - destruct (decide (w0 = w)) as [-> | Hne].
    + rewrite onActivated_history. by apply activated_inv.
    + erewrite history_insert_ne; [apply Hinv | done |].
      apply onActivated_session.
  - eapply HistoryInv_sublist; [| apply Hinv]. rewrite onRemoved_history.
    destruct closing; [done |].
    case_decide; [subst; apply sublist_filter | done].
  - eapply HistoryInv_sublist; [| apply Hinv].
    rewrite onWindowRemoved_history_all.
    case_decide; [apply sublist_nil_l | done].
  - eapply HistoryInv_sublist; [| apply Hinv]. rewrite onCommand_exec.
    case_decide; [apply switchToPreviousTab_sublist | done].
Qed.

(** X12.  The invariant of the histories is kept by every listener of the
    second revision: from a state in which every window's history has at
    most 4 entries and no duplicate, any sequence of start-ups,
    activations, tab removals, window removals and commands, with any
    answers of the browser, ends in such a state. *)
Theorem run_preserves_invariant (evs : list Event) (st : State) :
  AllInv st → AllInv (run evs st).
Proof.
  unfold run. revert st.
  induction evs as [| ev evs IH]; intros st Hinv; [done |].
  cbn [foldl]. apply IH. intros w. by apply handle_inv.
Qed.

(** X13.  The remembered tab index is written by the activation listener
    alone, which sets it to the index of the activated tab, or to nothing
    when the tab cannot be read.  A removal, also of the active tab, a
    window removal, a command and a start-up leave it as it is. *)
Theorem activeTabIndex_written_by_activation_only (ev : Event) (st : State) :
  activeTabIndex (handle st ev) =
    match ev with
    | Activated c tabId _ => tab_index <$> tabs_get c tabId
    | _ => activeTabIndex st
    end.
Proof.
  destruct ev as [windows | c t w | c t w closing | w | c cmd]; cbn [handle].
  - reflexivity.
  - unfold exec. by rewrite onActivated_run.
  - destruct closing; [reflexivity |].
    by destruct (onRemoved_logged c t w st) as [es ->].
  - reflexivity.
  - rewrite onCommand_exec. case_decide; [| done].
    destruct (truthy (windows_getCurrent c)) as [w |] eqn:Hw.
    + destruct (resolveSwitchTarget_state c w
                  (logged [WindowsGetCurrent] st)) as (_ & _ & _ & Hidx & _).
      unfold exec in *.
      by rewrite (switchToPreviousTab_resolved c w), Hidx by done.
    + unfold exec. by rewrite switchToPreviousTab_no_window.
Qed.

(** ** Toggling between the two most recent tabs *)





(** ** Activation followed by removal *)

(** X15.  Closing a tab right after it was activated leaves its window
    with the three most recent of the other tabs.  If the tab was new to a
    history of at most three entries the history is back to what it was;
    a fourth entry, which the activation pushed out, does not come back. *)
Theorem removal_after_activation (c1 c2 : Chrome) (t w : Z) (st : State) :
  let st' := exec (Rev2.onRemoved c2 t w false)
               (exec (Rev2.onActivated c1 t w) st) in
  history st' w = take 3 (filter (λ id, id ≠ t) (history st w)) ∧
  (t ∉ history st w → (length (history st w) ≤ 3)%nat →
   history st' w = history st w).
Proof.
  cbv zeta.
  assert (history (exec (Rev2.onRemoved c2 t w false)
                     (exec (Rev2.onActivated c1 t w) st)) w =
          take 3 (filter (λ id, id ≠ t) (history st w))) as Heq.
  { rewrite onRemoved_history, decide_True by done.
    rewrite onActivated_history, activated_take.
    rewrite filter_cons_False by (intros H; by apply H).
    apply filter_ne_take. intros Hin.
    by apply list_elem_of_filter in Hin as [Hne _]. }
  split; [done |]. intros Hnin Hlen. rewrite Heq.
  rewrite filter_Forall_id by (apply Forall_forall; by intros x Hx ->).
  by rewrite take_ge by lia.
Qed.

(** ** Replacement by position *)

Lemma find_by_index (l : list Tab) (off k : nat) (tab : Tab) :
  (∀ (i : nat) x, l !! i = Some x → tab_index x = Z.of_nat (off + i)) →
  l !! k = Some tab →
  List.find (λ x, tab_index x =? Z.of_nat (off + k)) l = Some tab.
Proof.
  revert off k. induction l as [| y l IH]; intros off k Hidx Hk; [done |].
  cbn [List.find]. pose proof (Hidx 0%nat y eq_refl) as Hy.
  destruct k as [| k].
  - cbn in Hk. injection Hk as ->. by rewrite Hy, Z.eqb_refl.
  - cbn in Hk. replace (tab_index y =? Z.of_nat (off + S k)) with false
      by (symmetry; apply Z.eqb_neq; lia).
    replace (off + S k)%nat with (S off + k)%nat by lia.
    apply IH; [| done]. intros i x Hx.
    rewrite (Hidx (S i) x Hx). f_equal. lia.
Qed.

(** X16.  When the closed tab was the most recent one, the remembered
    index is [h >= 0] and the window's remaining tabs are listed in order
    of their positions, the tab activated is the one at position [h] of the
    list, or the last tab of the list when [h] is beyond its end. *)
Theorem onRemoved_clamps_position (c : Chrome) (t w h target : Z)
  (allTabs : list Tab) (tab : Tab) (st : State) :
  history st w !! 0%nat = Some t →
  activeTabIndex st = Some h →
  0 ≤ h →
  tabs_query c w = Some allTabs →
  well_indexed allTabs →
  allTabs !! (Z.to_nat h `min` (length allTabs - 1))%nat = Some tab →
  truthy (tab_id tab) = Some target →
  trace (exec (Rev2.onRemoved c t w false) st) =
    trace st ++
    [StorageSet (<[w := filter (λ id, id ≠ t) (history st w)]> (table st));
     TabsQuery w; TabsUpdate target (tabs_update c target)] ++
    (if tabs_update c target then []
     else [ConsoleError "Error switching to next tab by position:"]).
Proof.
  intros Hhd Hhint Hh Hq Hwi Htab Hid.
  assert (length allTabs ≠ 0)%nat as Hlen
    by (intros Hl; by apply nil_length_inv in Hl; subst).
  erewrite onRemoved_replacement; [| done | done | done | | done].
  - unfold logged. cbn [trace]. rewrite persisted_trace.
    by rewrite <- !app_assoc.
  - replace (Z.min h (Z.of_nat (length allTabs) - 1))
      with (Z.of_nat (0 + (Z.to_nat h `min` (length allTabs - 1)))) by lia.
    apply find_by_index; [| done]. intros i x Hx. by apply Hwi.
Qed.

(** ** Removal in the two revisions *)

Lemma Rev1_onRemoved_logged c t w st :
  ∃ es,
    exec (Rev1.onRemoved c t w false) st =
      logged es (persisted w (filter (λ id, id ≠ t) (history st w)) st).
Proof.
  unfold exec, Rev1.onRemoved, bind.
  rewrite getRecentTabsForWindow_run, setRecentTabsForWindow_run.
  set (st1 := mkState _ _ _).
  change (persisted w (filter (λ id, id ≠ t) (history st w)) st) with st1.
  destruct (bool_decide _ && _);
    [| exists []; rewrite logged_nil; reflexivity].
  destruct (filter _ _ !! 0%nat) as [nextTabId |];
    [| exists []; rewrite logged_nil; reflexivity].
  rewrite chrome_tabs_update_run.
  destruct (tabs_update c nextTabId); cbn [snd].
  - eexists. reflexivity.
  - exists ([TabsUpdate nextTabId false] ++
            [ConsoleError "Error switching to next tab in history:"]).
    rewrite <- logged_logged. reflexivity.
Qed.

(** X17.  On a tab removal the two revisions store the same table, with
    the closed tab dropped from its window's history, and neither touches
    the table when the window is closing.  They differ only in the tab
    they then try to activate. *)
Theorem onRemoved_revisions_same_table (c1 c2 : Chrome) (t w : Z)
  (closing : bool) (st : State) :
  session (exec (Rev1.onRemoved c1 t w closing) st) =
    session (exec (Rev2.onRemoved c2 t w closing) st) ∧
  session (exec (Rev1.onRemoved c1 t w closing) st) =
    if closing then session st
    else Some (<[w := filter (λ id, id ≠ t) (history st w)]> (table st)).
Proof.
  destruct closing; [done |].
  destruct (Rev1_onRemoved_logged c1 t w st) as [es1 ->].
  destruct (onRemoved_logged c2 t w st) as [es2 ->]. done.
Qed.

(** ** Edges of the command and of the replacement *)

(** X18.  When Chrome reports no id for the focused window, or the id 0,
    both revisions of [switchToPreviousTab] log that there is no current
    window and return: the history is not read, nothing is stored and no
    tab is activated. *)
Theorem switchToPreviousTab_without_window (c : Chrome) (st : State) :
  windows_getCurrent c = None ∨ windows_getCurrent c = Some 0 →
  Rev2.switchToPreviousTab c st =
    (NoCurrentWindow,
     logged [WindowsGetCurrent; ConsoleLog "No current window"] st) ∧
  Rev1.switchToPreviousTab c st = Rev2.switchToPreviousTab c st.
Proof.
  intros Hw.
  assert (truthy (windows_getCurrent c) = None) as Hfalsy
    by (by destruct Hw as [-> | ->]).
  split; [by apply switchToPreviousTab_no_window |].
  unfold Rev1.switchToPreviousTab, Rev2.switchToPreviousTab, bind.
  unfold chrome_windows_getCurrent, bind, emit, ret. by rewrite Hfalsy.
Qed.

(** X19.  When the closed tab was the most recent one and an index is
    remembered, but the query for the window's tabs fails, or no listed tab
    has the target index (an empty list in particular), or the tab found
    has no id or the id 0, no tab is activated: the handler stops after the
    query, logging an error only for the failed query. *)
Theorem onRemoved_without_target (c : Chrome) (t w h : Z) (st : State) :
  history st w !! 0%nat = Some t →
  activeTabIndex st = Some h →
  match tabs_query c w with
  | Some allTabs =>
      truthy
        (List.find
           (λ x, tab_index x =? Z.min h (Z.of_nat (length allTabs) - 1))
           allTabs ≫= tab_id) = None
  | None => True
  end →
  trace (exec (Rev2.onRemoved c t w false) st) =
    trace st ++
    [StorageSet (<[w := filter (λ id, id ≠ t) (history st w)]> (table st));
     TabsQuery w] ++
    match tabs_query c w with
    | Some _ => []
    | None => [ConsoleError "Error switching to next tab by position:"]
    end.
Proof.
  intros Hhd Hhint Hnone. unfold exec, Rev2.onRemoved, bind.
  rewrite getRecentTabsForWindow_run, setRecentTabsForWindow_run.
  unfold get_activeTabIndex. cbn [activeTabIndex].
  rewrite bool_decide_eq_true_2 by done. rewrite Hhint.
  unfold chrome_tabs_query, bind, emit, ret. cbn [fst snd].
  destruct (tabs_query c w) as [allTabs |].
  - destruct (0 <? length allTabs)%nat.
    + cbv zeta. rewrite Hnone. cbn. by rewrite <- app_assoc.
    + cbn. by rewrite <- app_assoc.
  - cbn. by rewrite <- !app_assoc.
Qed.

(** ** The further theorems at concrete inputs *)

Lemma onInstalled_entries_witness :
  table (exec (onInstalled windows_at_startup) (st_5_3_9 None)) !! 1
    = Some [3] ∧
  installed_entry windows_at_startup 1 [3].
Proof.
  assert (table (exec (onInstalled windows_at_startup) (st_5_3_9 None)) !! 1
            = Some [3]) as Hl by reflexivity.
  split; [exact Hl |].
  exact (onInstalled_entries windows_at_startup (st_5_3_9 None) 1 [3] Hl).
Defined.

Lemma onInstalled_window_witness :
  truthy (window_id window_1) = Some 1 ∧
  Forall (λ x, window_id x ≠ Some 1) windows_after_1 ∧
  history (exec (onInstalled ([] ++ window_1 :: windows_after_1))
             (st_5_3_9 None)) 1 = [3].
Proof.
  assert (truthy (window_id window_1) = Some 1) as Hid by reflexivity.
  assert (Forall (λ x, window_id x ≠ Some 1) windows_after_1) as Hafter
    by (repeat constructor; discriminate).
  split; [exact Hid |]. split; [exact Hafter |].
  exact (onInstalled_window [] windows_after_1 window_1 _ 1 3
           (st_5_3_9 None) Hid eq_refl eq_refl Hafter).
Defined.

Lemma Rev1_onRemoved_next_in_history_witness :
  history (st_5_3_9 None) 1 = [5; 3; 9] ∧
  NoDup (history (st_5_3_9 None) 1) ∧
  history (exec (Rev1.onRemoved (browser tabs_9_3_7) 5 1 false)
             (st_5_3_9 None)) 1 = [3; 9] ∧
  trace (exec (Rev1.onRemoved (browser tabs_9_3_7) 5 1 false)
           (st_5_3_9 None)) =
    [StorageSet {[ 1 := [3; 9] ]}; TabsUpdate 3 true].
Proof.
  assert (history (st_5_3_9 None) 1 = [5; 3; 9]) as Hh by reflexivity.
  assert (NoDup (history (st_5_3_9 None) 1)) as Hnd
    by compute_done.
  destruct (Rev1_onRemoved_next_in_history (browser tabs_9_3_7) 5 3 1 [9]
              (st_5_3_9 None) Hh Hnd) as [Hhist Htrace].
  split; [exact Hh |]. split; [exact Hnd |]. split; [exact Hhist |].
  rewrite Htrace. reflexivity.
Defined.


Lemma AllInv_fresh : AllInv fresh.
Proof.
  intros w. rewrite history_table. change (table fresh) with (∅ : gmap Z (list Z)).
  rewrite lookup_empty. split; [cbn; lia | apply NoDup_nil_2].
Defined.

Lemma run_preserves_invariant_witness :
  AllInv fresh ∧
  AllInv (run mixed_events fresh) ∧
  history (run (take 5 mixed_events) fresh) 1 = [8; 4; 7; 9] ∧
  history (run mixed_events fresh) 1 = [8; 7; 9].
Proof.
  split; [exact AllInv_fresh |].
  split; [exact (run_preserves_invariant mixed_events fresh AllInv_fresh) |].
  split; reflexivity.
Defined.


Lemma removal_after_activation_witness :
  let c := browser tabs_9_3_7 in
  let st := st_5_3_9 None in
  (7 ∉ history st 1) ∧
  (length (history st 1) ≤ 3)%nat ∧
  history (exec (Rev2.onRemoved c 7 1 false)
             (exec (Rev2.onActivated c 7 1) st)) 1 = [5; 3; 9].
Proof.
  intros c st.
  assert (7 ∉ history st 1) as Hnin
    by compute_done.
  assert (length (history st 1) ≤ 3)%nat as Hlen by (vm_compute; lia).
  split; [exact Hnin |]. split; [exact Hlen |].
  exact (proj2 (removal_after_activation c c 7 1 st) Hnin Hlen).
Defined.

Lemma well_indexed_9_3_7 : well_indexed tabs_9_3_7.
Proof.
  intros i tab Hi. destruct i as [| [| [| i]]]; cbn in Hi;
    [injection Hi as <-; reflexivity .. | discriminate].
Defined.

Lemma onRemoved_clamps_position_witness :
  let c := browser tabs_9_3_7 in
  let st := st_5_3_9 (Some 7) in
  history st 1 !! 0%nat = Some 5 ∧
  activeTabIndex st = Some 7 ∧
  0 ≤ 7 ∧
  tabs_query c 1 = Some tabs_9_3_7 ∧
  well_indexed tabs_9_3_7 ∧
  tabs_9_3_7 !! (Z.to_nat 7 `min` (length tabs_9_3_7 - 1))%nat
    = Some (mkTab (Some 7) 2) ∧
  truthy (tab_id (mkTab (Some 7) 2)) = Some 7 ∧
  trace (exec (Rev2.onRemoved c 5 1 false) st) =
    [StorageSet {[ 1 := [3; 9] ]}; TabsQuery 1; TabsUpdate 7 true].
Proof.
  intros c st.
  assert (history st 1 !! 0%nat = Some 5) as Hhd by reflexivity.
  assert (activeTabIndex st = Some 7) as Hhint by reflexivity.
  assert (0 ≤ 7) as Hh by lia.
  assert (tabs_query c 1 = Some tabs_9_3_7) as Hq by reflexivity.
  assert (tabs_9_3_7 !! (Z.to_nat 7 `min` (length tabs_9_3_7 - 1))%nat
            = Some (mkTab (Some 7) 2)) as Htab by reflexivity.
  assert (truthy (tab_id (mkTab (Some 7) 2)) = Some 7) as Hid by reflexivity.
  split; [exact Hhd |]. split; [exact Hhint |]. split; [exact Hh |].
  split; [exact Hq |]. split; [exact well_indexed_9_3_7 |].
  split; [exact Htab |]. split; [exact Hid |].
  rewrite (onRemoved_clamps_position c 5 1 7 7 tabs_9_3_7 (mkTab (Some 7) 2)
             st Hhd Hhint Hh Hq well_indexed_9_3_7 Htab Hid).
  reflexivity.
Defined.

Lemma switchToPreviousTab_without_window_witness :
  (windows_getCurrent browser_window_0 = None ∨
   windows_getCurrent browser_window_0 = Some 0) ∧
  result (Rev2.switchToPreviousTab browser_window_0) (stored 0 [5; 3] None)
    = NoCurrentWindow ∧
  Rev1.switchToPreviousTab browser_window_0 (stored 0 [5; 3] None) =
    Rev2.switchToPreviousTab browser_window_0 (stored 0 [5; 3] None).
Proof.
  assert (windows_getCurrent browser_window_0 = None ∨
          windows_getCurrent browser_window_0 = Some 0) as Hw
    by (right; reflexivity).
  destruct (switchToPreviousTab_without_window browser_window_0
              (stored 0 [5; 3] None) Hw) as [Hrun Hagree].
  split; [exact Hw |]. split; [| exact Hagree].
  unfold result. rewrite Hrun. reflexivity.
Defined.

Lemma onRemoved_without_target_witness :
  let c := browser [] in
  let st := st_5_3_9 (Some 2) in
  history st 1 !! 0%nat = Some 5 ∧
  activeTabIndex st = Some 2 ∧
  tabs_query c 1 = Some [] ∧
  trace (exec (Rev2.onRemoved c 5 1 false) st) =
    [StorageSet {[ 1 := [3; 9] ]}; TabsQuery 1].
Proof.
  intros c st.
  assert (history st 1 !! 0%nat = Some 5) as Hhd by reflexivity.
  assert (activeTabIndex st = Some 2) as Hhint by reflexivity.
  split; [exact Hhd |]. split; [exact Hhint |]. split; [reflexivity |].
  rewrite (onRemoved_without_target c 5 1 2 st Hhd Hhint eq_refl).
  reflexivity.
Defined.
